(** * go-ublk: control-command wrappers and the SQE layout report

    A shallow embedding of the two C sources of the repository:

    - [internal/uring/ublk_control.c]: the [ublksrv_ctrl_cmd] record, the
      seven [UBLK_CMD_*] constants and the five ioctl wrappers
      [ublk_add_dev], [ublk_set_params], [ublk_start_dev], [ublk_stop_dev]
      and [ublk_del_dev];
    - [test_sqe_offset.c]: the simplified [io_uring_sqe] declaration and the
      [main] that prints its size and field offsets.

    Both files lean on what the C compiler does with a [struct] declaration,
    so the development starts with a small model of C object layout
    ([sizeof], [alignof], [offsetof]) that is parametrised by the platform's
    alignment choices. *)

From Stdlib Require Import ZArith List String Ascii Bool Lia DecimalString.
Import ListNotations.
Open Scope Z_scope.
Open Scope list_scope.

(* ====================================================================== *)
(** ** C object layout *)
(* ====================================================================== *)

Set Warnings "-register-all".

Module CLayout.

(** What the platform decides and the C sources do not: the alignment of
    the 2-, 4- and 8-byte integer types, the size and alignment of a data
    pointer, and the byte order.  The fixed-width types have the sizes
    their names say on every platform. *)
Record ABI : Type := mkABI {
  align16    : Z;
  align32    : Z;
  align64    : Z;
  ptr_size   : Z;
  ptr_align  : Z;
  big_endian : bool
}.

(** x86-64 and AArch64 Linux. *)
Definition lp64 : ABI :=
  {| align16 := 2; align32 := 4; align64 := 8;
     ptr_size := 8; ptr_align := 8; big_endian := false |}.

(** 32-bit x86 Linux: 8-byte integers are only 4-aligned inside structs. *)
Definition ilp32 : ABI :=
  {| align16 := 2; align32 := 4; align64 := 4;
     ptr_size := 4; ptr_align := 4; big_endian := false |}.

Definition divides_pos (a n : Z) : bool := (0 <? a) && (n mod a =? 0).

(** The platforms covered: every alignment is a positive divisor of the
    size of its type, and pointers are 4 or 8 bytes wide. *)
Definition abi_ok (abi : ABI) : bool :=
  divides_pos (align16 abi) 2 &&
  divides_pos (align32 abi) 4 &&
  divides_pos (align64 abi) 8 &&
  ((ptr_size abi =? 4) || (ptr_size abi =? 8)) &&
  divides_pos (ptr_align abi) (ptr_size abi).

(** The types that occur in the two struct declarations.  A member is a
    pair of an optional name and a type; [None] is an anonymous struct or
    union member, whose own members are found through it. *)
Inductive ctype : Type :=
| Tu8                      (* uint8_t *)
| Tu16                     (* uint16_t, __u16 *)
| Ts32                     (* int32_t *)
| Tu32                     (* uint32_t, __u32 *)
| Tu64                     (* uint64_t, __u64 *)
| Tptr                     (* void * *)
| Tarray (t : ctype) (n : Z)
| Tstruct (ms : list (option string * ctype))
| Tunion (ms : list (option string * ctype)).

Definition member : Type := (option string * ctype)%type.

(** Round [off] up to the next multiple of [a]. *)
Definition align_up (off a : Z) : Z := ((off + a - 1) / a) * a.

Section Layout.
Variable abi : ABI.

Fixpoint alignof (t : ctype) : Z :=
  match t with
  | Tu8 => 1
  | Tu16 => align16 abi
  | Ts32 | Tu32 => align32 abi
  | Tu64 => align64 abi
  | Tptr => ptr_align abi
  | Tarray t' _ => alignof t'
  | Tstruct ms | Tunion ms =>
      (fix max_align (l : list member) : Z :=
         match l with
         | [] => 1
         | (_, t') :: l' => Z.max (alignof t') (max_align l')
         end) ms
  end.

Fixpoint sizeof (t : ctype) : Z :=
  match t with
  | Tu8 => 1
  | Tu16 => 2
  | Ts32 | Tu32 => 4
  | Tu64 => 8
  | Tptr => ptr_size abi
  | Tarray t' n => n * sizeof t'
  | Tstruct ms =>
      align_up
        ((fix place (l : list member) (off : Z) : Z :=
            match l with
            | [] => off
            | (_, t') :: l' =>
                place l' (align_up off (alignof t') + sizeof t')
            end) ms 0)
        (alignof t)
  | Tunion ms =>
      align_up
        ((fix widest (l : list member) : Z :=
            match l with
            | [] => 0
            | (_, t') :: l' => Z.max (sizeof t') (widest l')
            end) ms)
        (alignof t)
  end.

(** [offsetof t name]: the byte offset of member [name] in [t], looking
    through anonymous struct and union members; [None] when [t] has no
    such member (the C program would not compile). *)
Fixpoint offsetof (t : ctype) (name : string) : option Z :=
  match t with
  | Tstruct ms =>
      (fix find (l : list member) (off : Z) : option Z :=
         match l with
         | [] => None
         | (n, t') :: l' =>
             let o := align_up off (alignof t') in
             match n with
             | Some n' =>
                 if String.eqb n' name then Some o
                 else find l' (o + sizeof t')
             | None =>
                 match offsetof t' name with
                 | Some d => Some (o + d)
                 | None => find l' (o + sizeof t')
                 end
             end
         end) ms 0
  | Tunion ms =>
      (fix find (l : list member) : option Z :=
         match l with
         | [] => None
         | (n, t') :: l' =>
             match n with
             | Some n' => if String.eqb n' name then Some 0 else find l'
             | None =>
                 match offsetof t' name with
                 | Some d => Some d
                 | None => find l'
                 end
             end
         end) ms
  | _ => None
  end.

(** The type of member [name], found the way [offsetof] finds it. *)
Fixpoint typeof_member (t : ctype) (name : string) : option ctype :=
  match t with
  | Tstruct ms | Tunion ms =>
      (fix find (l : list member) : option ctype :=
         match l with
         | [] => None
         | (n, t') :: l' =>
             match n with
             | Some n' => if String.eqb n' name then Some t' else find l'
             | None =>
                 match typeof_member t' name with
                 | Some u => Some u
                 | None => find l'
                 end
             end
         end) ms
  | _ => None
  end.

End Layout.

(** Offset and size of member [name] of [t]. *)
Definition member_extent (abi : ABI) (t : ctype) (name : string)
  : option (Z * Z) :=
  match offsetof abi t name, typeof_member t name with
  | Some o, Some u => Some (o, sizeof abi u)
  | _, _ => None
  end.

(** *** Object representation

    An object is a list of bytes (each a [Z] in 0..255).  An integer of
    [n] bytes is stored least significant byte first, or the other way
    round on a big-endian platform. *)

Definition byte_at (i : nat) (v : Z) : Z :=
  Z.land (Z.shiftr v (8 * Z.of_nat i)) 255.

Definition le_bytes (n : nat) (v : Z) : list Z :=
  map (fun i => byte_at i v) (seq 0 n).

Fixpoint le_value (bs : list Z) : Z :=
  match bs with
  | [] => 0
  | b :: bs' => b + 256 * le_value bs'
  end.

Definition bytes_of_int (abi : ABI) (n : nat) (v : Z) : list Z :=
  if big_endian abi then rev (le_bytes n v) else le_bytes n v.

Definition int_of_bytes (abi : ABI) (bs : list Z) : Z :=
  le_value (if big_endian abi then rev bs else bs).

(** Overwrite [buf] from byte [off] on with [bs]. *)
Definition store (buf : list Z) (off : Z) (bs : list Z) : list Z :=
  firstn (Z.to_nat off) buf ++ bs
    ++ skipn (Z.to_nat off + List.length bs)%nat buf.

(** The [n] bytes of [buf] from byte [off] on. *)
Definition load (buf : list Z) (off : Z) (n : nat) : list Z :=
  firstn n (skipn (Z.to_nat off) buf).

(** The object of struct type [t] whose named scalar members hold the given
    values: [sizeof t] zero bytes, then every member stored at its
    [offsetof].  A name that [t] does not declare stores nothing. *)
Definition store_member (abi : ABI) (t : ctype)
    (buf : list Z) (m : string * Z) : list Z :=
  match offsetof abi t (fst m), typeof_member t (fst m) with
  | Some o, Some u =>
      store buf o (bytes_of_int abi (Z.to_nat (sizeof abi u)) (snd m))
  | _, _ => buf
  end.

Definition object_of (abi : ABI) (t : ctype)
    (ms : list (string * Z)) : list Z :=
  fold_left (store_member abi t) ms
    (repeat 0 (Z.to_nat (sizeof abi t))).

(** Reading an unsigned integer of [n] bytes at [off]. *)
Definition read_uint (abi : ABI) (buf : list Z) (off : Z) (n : nat) : Z :=
  int_of_bytes abi (load buf off n).

(** The names under which [offsetof] finds a member of [t]: the named
    members, and those of anonymous struct and union members. *)
Fixpoint member_names (t : ctype) : list string :=
  match t with
  | Tstruct ms | Tunion ms =>
      (fix collect (l : list member) : list string :=
         match l with
         | [] => []
         | (n, t') :: l' =>
             match n with
             | Some s => [s]
             | None => member_names t'
             end ++ collect l'
         end) ms
  | _ => []
  end.

End CLayout.

(* ====================================================================== *)
(** ** internal/uring/ublk_control.c *)
(* ====================================================================== *)

Module UblkControl.
Import CLayout.

(** Conversion to the unsigned type of [w] bits, and to [int]. *)
Definition uint (w v : Z) : Z := v mod 2 ^ w.
Definition u16 : Z -> Z := uint 16.
Definition u32 : Z -> Z := uint 32.
Definition u64 : Z -> Z := uint 64.

Definition INT_MIN : Z := - 2 ^ 31.
Definition INT_MAX : Z := 2 ^ 31 - 1.
Definition sint32 (v : Z) : Z := (v + 2 ^ 31) mod 2 ^ 32 - 2 ^ 31.

(** Unary minus on [int]; the wrap-around only shows at [INT_MIN], where C
    leaves the operation undefined. *)
Definition int_neg (v : Z) : Z := sint32 (- v).

(** UBLK ioctl definitions. *)
Definition UBLK_CMD_ADD_DEV      : Z := 0x04.
Definition UBLK_CMD_SET_PARAMS   : Z := 0x05.
Definition UBLK_CMD_START_DEV    : Z := 0x06.
Definition UBLK_CMD_STOP_DEV     : Z := 0x10.
Definition UBLK_CMD_DEL_DEV      : Z := 0x02.
Definition UBLK_CMD_GET_DEV_INFO : Z := 0x01.
Definition UBLK_CMD_GET_PARAMS   : Z := 0x09.

(** ['u'] *)
Definition UBLK_IOC_MAGIC : Z := 117.

(** [struct ublksrv_ctrl_cmd], as a value ... *)
Record ublksrv_ctrl_cmd : Type := {
  dev_id       : Z;   (* __u32 *)
  queue_id     : Z;   (* __u16 *)
  len          : Z;   (* __u16 *)
  addr         : Z;   (* __u64 *)
  data         : Z;   (* __u64 *)
  dev_path_len : Z;   (* __u16 *)
  pad          : Z;   (* __u16 *)
  reserved     : Z    (* __u32 *)
}.

(** ... and as a declaration the compiler lays out. *)
Definition struct_ublksrv_ctrl_cmd : ctype :=
  Tstruct
    [ (Some "dev_id"%string,       Tu32);
      (Some "queue_id"%string,     Tu16);
      (Some "len"%string,          Tu16);
      (Some "addr"%string,         Tu64);
      (Some "data"%string,         Tu64);
      (Some "dev_path_len"%string, Tu16);
      (Some "pad"%string,          Tu16);
      (Some "reserved"%string,     Tu32) ].

Definition members_of (c : ublksrv_ctrl_cmd) : list (string * Z) :=
  [ ("dev_id"%string,       dev_id c);
    ("queue_id"%string,     queue_id c);
    ("len"%string,          len c);
    ("addr"%string,         addr c);
    ("data"%string,         data c);
    ("dev_path_len"%string, dev_path_len c);
    ("pad"%string,          pad c);
    ("reserved"%string,     reserved c) ].

(** The bytes of a [cmd] object, which is what [&cmd] hands to the kernel. *)
Definition cmd_bytes (abi : ABI) (c : ublksrv_ctrl_cmd) : list Z :=
  object_of abi struct_ublksrv_ctrl_cmd (members_of c).

(** *** The environment

    The wrappers touch the outside world in two ways: they call [ioctl] and
    they read [errno].  A [world] holds the current [errno] and the ioctl
    calls issued so far, oldest first. *)
Record ioctl_call : Type := {
  call_fd      : Z;
  call_request : Z;
  call_arg     : ublksrv_ctrl_cmd
}.

Record world : Type := {
  errno  : Z;
  issued : list ioctl_call
}.

Definition M (A : Type) : Type := world -> A * world.

Definition Return {A : Type} (a : A) : M A := fun w => (a, w).

Definition bind {A B : Type} (c : M A) (k : A -> M B) : M B :=
  fun w => let (a, w') := c w in k a w'.

Notation "x <- c ;; k" := (bind c (fun x => k))
  (at level 61, c at next level, right associativity).

Definition get_errno : M Z := fun w => (errno w, w).

Section Wrappers.

(** Platform layout, needed for [sizeof(struct ublksrv_ctrl_cmd)]. *)
Variable abi : ABI.

(** [_IOWR(type, nr, size)] of <sys/ioctl.h>: how the platform packs the
    request number.  The wrappers only pass its result on. *)
Variable IOWR : Z -> Z -> Z -> Z.

(** What the system answers to an ioctl call in a given world: the value
    [ioctl] returns and the value of [errno] afterwards. *)
Variable kernel : world -> ioctl_call -> Z * Z.

Definition ioctl (fd request : Z) (arg : ublksrv_ctrl_cmd) : M Z :=
  fun w =>
    let c := {| call_fd := fd; call_request := request; call_arg := arg |} in
    let (r, e) := kernel w c in
    (r, {| errno := e; issued := issued w ++ [c] |}).

Definition UBLK_IOCTL_CMD (cmd : Z) : Z :=
  IOWR UBLK_IOC_MAGIC cmd (sizeof abi struct_ublksrv_ctrl_cmd).

(** Wrapper functions to be called from Go. *)
Definition ublk_add_dev (fd dev_id queue_id len addr : Z) : M Z :=
  let cmd :=
    {| dev_id := u32 dev_id;
       queue_id := u16 queue_id;
       len := u16 len;
       addr := u64 addr;
       data := 0;
       dev_path_len := 0;
       pad := 0;
       reserved := 0 |} in
  ret <- ioctl fd (UBLK_IOCTL_CMD UBLK_CMD_ADD_DEV) cmd ;;
  if ret <? 0 then e <- get_errno ;; Return (int_neg e)
  else Return ret.

Definition ublk_set_params (fd dev_id len addr : Z) : M Z :=
  let cmd :=
    {| dev_id := u32 dev_id;
       queue_id := 0xFFFF;
       len := u16 len;
       addr := u64 addr;
       data := 0;
       dev_path_len := 0;
       pad := 0;
       reserved := 0 |} in
  ret <- ioctl fd (UBLK_IOCTL_CMD UBLK_CMD_SET_PARAMS) cmd ;;
  if ret <? 0 then e <- get_errno ;; Return (int_neg e)
  else Return ret.

Definition ublk_start_dev (fd dev_id pid : Z) : M Z :=
  let cmd :=
    {| dev_id := u32 dev_id;
       queue_id := 0xFFFF;
       len := 0;
       addr := 0;
       data := u64 pid;
       dev_path_len := 0;
       pad := 0;
       reserved := 0 |} in
  ret <- ioctl fd (UBLK_IOCTL_CMD UBLK_CMD_START_DEV) cmd ;;
  if ret <? 0 then e <- get_errno ;; Return (int_neg e)
  else Return ret.

Definition ublk_stop_dev (fd dev_id : Z) : M Z :=
  let cmd :=
    {| dev_id := u32 dev_id;
       queue_id := 0xFFFF;
       len := 0;
       addr := 0;
       data := 0;
       dev_path_len := 0;
       pad := 0;
       reserved := 0 |} in
  ret <- ioctl fd (UBLK_IOCTL_CMD UBLK_CMD_STOP_DEV) cmd ;;
  if ret <? 0 then e <- get_errno ;; Return (int_neg e)
  else Return ret.

Definition ublk_del_dev (fd dev_id : Z) : M Z :=
  let cmd :=
    {| dev_id := u32 dev_id;
       queue_id := 0xFFFF;
       len := 0;
       addr := 0;
       data := 0;
       dev_path_len := 0;
       pad := 0;
       reserved := 0 |} in
  ret <- ioctl fd (UBLK_IOCTL_CMD UBLK_CMD_DEL_DEV) cmd ;;
  if ret <? 0 then e <- get_errno ;; Return (int_neg e)
  else Return ret.

(** One call of one of the five wrappers, with its arguments. *)
Inductive wrapper_call : Type :=
| AddDev    (fd dev_id queue_id len addr : Z)
| SetParams (fd dev_id len addr : Z)
| StartDev  (fd dev_id pid : Z)
| StopDev   (fd dev_id : Z)
| DelDev    (fd dev_id : Z).

Definition run (c : wrapper_call) : M Z :=
  match c with
  | AddDev fd d q l a  => ublk_add_dev fd d q l a
  | SetParams fd d l a => ublk_set_params fd d l a
  | StartDev fd d p    => ublk_start_dev fd d p
  | StopDev fd d       => ublk_stop_dev fd d
  | DelDev fd d        => ublk_del_dev fd d
  end.

(** What a run of [c] adds to the record of issued ioctl calls, and the
    command records those calls carry. *)
Definition calls_issued (c : wrapper_call) (w : world) : list ioctl_call :=
  skipn (List.length (issued w)) (issued (snd (run c w))).

Definition commands_issued (c : wrapper_call) (w : world)
  : list ublksrv_ctrl_cmd :=
  map call_arg (calls_issued c w).

End Wrappers.

Definition is_add (c : wrapper_call) : bool :=
  match c with
  | AddDev _ _ _ _ _ => true
  | _ => false
  end.

(** The descriptor, the command number and the record that each wrapper
    hands to [ioctl], read off its body; [run_submits] below shows that
    [run] issues exactly this. *)
Definition fd_of (c : wrapper_call) : Z :=
  match c with
  | AddDev fd _ _ _ _ | SetParams fd _ _ _ | StartDev fd _ _
  | StopDev fd _ | DelDev fd _ => fd
  end.

Definition number_of (c : wrapper_call) : Z :=
  match c with
  | AddDev _ _ _ _ _  => UBLK_CMD_ADD_DEV
  | SetParams _ _ _ _ => UBLK_CMD_SET_PARAMS
  | StartDev _ _ _    => UBLK_CMD_START_DEV
  | StopDev _ _       => UBLK_CMD_STOP_DEV
  | DelDev _ _        => UBLK_CMD_DEL_DEV
  end.

Definition command_of (c : wrapper_call) : ublksrv_ctrl_cmd :=
  match c with
  | AddDev _ d q l a =>
      {| dev_id := u32 d; queue_id := u16 q; len := u16 l; addr := u64 a;
         data := 0; dev_path_len := 0; pad := 0; reserved := 0 |}
  | SetParams _ d l a =>
      {| dev_id := u32 d; queue_id := 0xFFFF; len := u16 l; addr := u64 a;
         data := 0; dev_path_len := 0; pad := 0; reserved := 0 |}
  | StartDev _ d p =>
      {| dev_id := u32 d; queue_id := 0xFFFF; len := 0; addr := 0;
         data := u64 p; dev_path_len := 0; pad := 0; reserved := 0 |}
  | StopDev _ d | DelDev _ d =>
      {| dev_id := u32 d; queue_id := 0xFFFF; len := 0; addr := 0;
         data := 0; dev_path_len := 0; pad := 0; reserved := 0 |}
  end.

Definition call_of (abi : ABI) (IOWR : Z -> Z -> Z -> Z)
    (c : wrapper_call) : ioctl_call :=
  {| call_fd := fd_of c;
     call_request := UBLK_IOCTL_CMD abi IOWR (number_of c);
     call_arg := command_of c |}.

(** Every member holds a value of its declared type. *)
Definition cmd_in_range (c : ublksrv_ctrl_cmd) : Prop :=
  0 <= dev_id c < 2 ^ 32 /\
  0 <= queue_id c < 2 ^ 16 /\
  0 <= len c < 2 ^ 16 /\
  0 <= addr c < 2 ^ 64 /\
  0 <= data c < 2 ^ 64 /\
  0 <= dev_path_len c < 2 ^ 16 /\
  0 <= pad c < 2 ^ 16 /\
  0 <= reserved c < 2 ^ 32.

(** *** Test doubles *)

(** A simulated kernel that answers every command with the result [k].  As
    the C library does for a system call, a negative result [-N] reaches the
    caller of [ioctl] as the return value -1 with [errno] set to [N], and
    any other result is returned as it is, with [errno] left alone. *)
Definition simulated_kernel (k : Z) : world -> ioctl_call -> Z * Z :=
  fun w _ => if k <? 0 then (-1, - k) else (k, errno w).

(** [_IOWR] as <asm-generic/ioctl.h> of Linux defines it: direction bits
    read|write at bit 30, the size at bit 16, the type at bit 8, the number
    at bit 0. *)
Definition linux_IOWR (type nr size : Z) : Z :=
  Z.lor (Z.shiftl 3 30)
    (Z.lor (Z.shiftl type 8) (Z.lor (Z.shiftl nr 0) (Z.shiftl size 16))).

(** A process that has issued no ioctl yet. *)
Definition fresh_world : world := {| errno := 0; issued := [] |}.

(** Several wrapper calls, one after the other, as a caller makes them;
    the results come back in the order of the calls. *)
Fixpoint run_seq (abi : ABI) (IOWR : Z -> Z -> Z -> Z)
    (kernel : world -> ioctl_call -> Z * Z) (cs : list wrapper_call)
  : M (list Z) :=
  match cs with
  | [] => Return []
  | c :: cs' =>
      r <- run abi IOWR kernel c ;;
      rs <- run_seq abi IOWR kernel cs' ;;
      Return (r :: rs)
  end.

(** The fields of a request number as <asm-generic/ioctl.h> of Linux
    takes them apart: [_IOC_NR], [_IOC_TYPE], [_IOC_SIZE], [_IOC_DIR]. *)
Definition IOC_NR (request : Z) : Z := Z.land request 0xFF.
Definition IOC_TYPE (request : Z) : Z := Z.land (Z.shiftr request 8) 0xFF.
Definition IOC_SIZE (request : Z) : Z :=
  Z.land (Z.shiftr request 16) 0x3FFF.
Definition IOC_DIR (request : Z) : Z := Z.land (Z.shiftr request 30) 3.

End UblkControl.

(* ====================================================================== *)
(** ** The verb table *)
(* ====================================================================== *)

Module Codec.
Import UblkControl.
Local Open Scope string_scope.

(** The seven verbs that [ublk_control.c] defines a command number for. *)
Inductive verb : Type :=
| add | set_parameters | start | stop | delete | get_info | get_parameters.

Definition all_verbs : list verb :=
  [add; set_parameters; start; stop; delete; get_info; get_parameters].

(** The [#define] table of the source, read as a function. *)
Definition command_number (v : verb) : Z :=
  match v with
  | add            => UBLK_CMD_ADD_DEV
  | set_parameters => UBLK_CMD_SET_PARAMS
  | start          => UBLK_CMD_START_DEV
  | stop           => UBLK_CMD_STOP_DEV
  | delete         => UBLK_CMD_DEL_DEV
  | get_info       => UBLK_CMD_GET_DEV_INFO
  | get_parameters => UBLK_CMD_GET_PARAMS
  end.

Definition verb_name (v : verb) : string :=
  match v with
  | add            => "add"
  | set_parameters => "set-parameters"
  | start          => "start"
  | stop           => "stop"
  | delete         => "delete"
  | get_info       => "get-info"
  | get_parameters => "get-parameters"
  end.

Inductive codec_error : Type := UnknownVerb.

(** Modelled from the spec: the operation [opcode_for] of the Control
    Command Codec, which the C sources do not contain (they hold only the
    seven constants it maps to).  The spec gives it a fixed mapping with one
    entry per verb, named add, set-parameters, start, stop, delete, get-info
    and get-parameters, and the failure [UnknownVerb] for anything else.
    A requested verb is taken by its name, so that a request outside the
    fixed set can be written down at all. *)
Definition opcode_for (requested : string) : codec_error + Z :=
  match find (fun v => String.eqb (verb_name v) requested) all_verbs with
  | Some v => inr (command_number v)
  | None => inl UnknownVerb
  end.

End Codec.

(* ====================================================================== *)
(** ** test_sqe_offset.c *)
(* ====================================================================== *)

Module SqeOffset.
Import CLayout.
Local Open Scope string_scope.

(** Simplified io_uring_sqe structure from kernel. *)
Definition struct_io_uring_sqe : ctype :=
  Tstruct
    [ (Some "opcode", Tu8);
      (Some "flags", Tu8);
      (Some "ioprio", Tu16);
      (Some "fd", Ts32);
      (None, Tunion
         [ (Some "off", Tu64);
           (Some "addr2", Tu64);
           (None, Tstruct
              [ (Some "cmd_op", Tu32);
                (Some "__pad1", Tu32) ]) ]);
      (None, Tunion
         [ (Some "addr", Tu64);
           (Some "splice_off_in", Tu64);
           (Some "__pad2", Tptr) ]);
      (Some "len", Tu32);
      (None, Tunion
         [ (Some "uring_cmd_flags", Tu32);
           (Some "rw_flags", Tu32) ]);
      (Some "user_data", Tu64);
      (None, Tunion
         [ (None, Tstruct
              [ (None, Tunion
                   [ (Some "buf_index", Tu16);
                     (Some "buf_group", Tu16) ]);
                (Some "personality", Tu16);
                (None, Tunion
                   [ (Some "splice_fd_in", Ts32);
                     (Some "file_index", Tu32);
                     (Some "__pad3", Tu32);
                     (None, Tstruct
                        [ (Some "addr_len", Tu16);
                          (Some "__pad4", Tu16) ]) ]) ]);
           (Some "__pad5", Tarray Tu64 2) ]) ].

(** The line feed that the source writes as backslash-n. *)
Definition nl : string := String (ascii_of_nat 10) EmptyString.

(** What [%zu] prints for a [size_t]. *)
Definition zu (v : Z) : string := NilZero.string_of_uint (N.to_uint (Z.to_N v)).

(** A program that writes to standard output.  [None] stands for a
    program that does not compile, which is the case when [offsetof] names
    a member the struct does not have. *)
Definition Prog (A : Type) : Type := string -> option (A * string).

Definition Return {A : Type} (a : A) : Prog A := fun out => Some (a, out).

Definition bind {A B : Type} (c : Prog A) (k : A -> Prog B) : Prog B :=
  fun out =>
    match c out with
    | Some (a, out') => k a out'
    | None => None
    end.

Notation "c ;; k" := (bind c (fun _ => k))
  (at level 61, right associativity).

(** [printf] with a format that holds no conversion. *)
Definition printf (text : string) : Prog unit :=
  fun out => Some (tt, out ++ text).

(** [printf] with a format of the shape [before %zu after]. *)
Definition printf_zu (before after : string) (arg : option Z) : Prog unit :=
  fun out =>
    match arg with
    | Some v => Some (tt, out ++ before ++ zu v ++ after)
    | None => None
    end.

Section Report.
Variable abi : ABI.

Definition size_of_sqe : option Z := Some (sizeof abi struct_io_uring_sqe).
Definition offset_in_sqe (name : string) : option Z :=
  offsetof abi struct_io_uring_sqe name.

Definition main : Prog Z :=
  printf_zu "io_uring_sqe size: " nl size_of_sqe ;;
  printf_zu "offsetof(opcode): " nl (offset_in_sqe "opcode") ;;
  printf_zu "offsetof(fd): " nl (offset_in_sqe "fd") ;;
  printf_zu "offsetof(off): " nl (offset_in_sqe "off") ;;
  printf_zu "offsetof(addr): " nl (offset_in_sqe "addr") ;;
  printf_zu "offsetof(len): " nl (offset_in_sqe "len") ;;
  printf_zu "offsetof(uring_cmd_flags): " nl
    (offset_in_sqe "uring_cmd_flags") ;;
  printf_zu "offsetof(user_data): " nl (offset_in_sqe "user_data") ;;
  printf_zu "offsetof(buf_index): " nl (offset_in_sqe "buf_index") ;;
  printf_zu "offsetof(splice_fd_in): " nl (offset_in_sqe "splice_fd_in") ;;
  (* Important: with SQE128, addr3 would be at offset 48 *)
  printf (nl ++ "*** With SQE128, addr3 would be at offset 48 ***" ++ nl) ;;
  printf ("*** C code uses &sqe->addr3 which is offset 48 ***" ++ nl) ;;
  Return 0.

(** Standard output and exit status of a run. *)
Definition run_main : option (Z * string) := main "".

End Report.

(** *** Reading the report

    [reported marker out] is the decimal number that follows the first
    occurrence of [marker] in the text [out]. *)

Fixpoint drop_prefix (p s : string) : option string :=
  match p with
  | EmptyString => Some s
  | String a p' =>
      match s with
      | String b s' => if Ascii.eqb a b then drop_prefix p' s' else None
      | EmptyString => None
      end
  end.

Fixpoint find_after (marker s : string) : option string :=
  match drop_prefix marker s with
  | Some rest => Some rest
  | None =>
      match s with
      | EmptyString => None
      | String _ s' => find_after marker s'
      end
  end.

Definition digit_of (a : ascii) : option Z :=
  let n := Z.of_N (N_of_ascii a) in
  if ((48 <=? n)%Z && (n <=? 57)%Z)%bool then Some (n - 48) else None.

Fixpoint read_digits (s : string) (acc : option Z) : option Z :=
  match s with
  | EmptyString => acc
  | String a s' =>
      match digit_of a with
      | Some d =>
          read_digits s'
            (Some (10 * match acc with Some x => x | None => 0 end + d))
      | None => acc
      end
  end.

Definition reported (marker out : string) : option Z :=
  match find_after marker out with
  | Some rest => read_digits rest None
  | None => None
  end.

Definition reported_offset (out field : string) : option Z :=
  reported ("offsetof(" ++ field ++ "): ") out.

End SqeOffset.


(* ====================================================================== *)
(** ** Properties *)
(* ====================================================================== *)

Import CLayout UblkControl.

(** *** Platforms *)

Lemma divides_pos_2 (a : Z) : divides_pos a 2 = true -> a = 1 \/ a = 2.
Proof.
  unfold divides_pos. intros H.
  apply andb_prop in H. destruct H as [Hp Hd].
  apply Z.ltb_lt in Hp. apply Z.eqb_eq in Hd.
  assert (Hle : a <= 2).
  { destruct (Z_le_gt_dec a 2) as [Hl | Hg]; [exact Hl |].
    rewrite Z.mod_small in Hd by lia. discriminate Hd. }
  assert (Hc : a = 1 \/ a = 2) by lia. exact Hc.
Qed.

Lemma divides_pos_4 (a : Z) :
  divides_pos a 4 = true -> a = 1 \/ a = 2 \/ a = 4.
Proof.
  unfold divides_pos. intros H.
  apply andb_prop in H. destruct H as [Hp Hd].
  apply Z.ltb_lt in Hp. apply Z.eqb_eq in Hd.
  assert (Hle : a <= 4).
  { destruct (Z_le_gt_dec a 4) as [Hl | Hg]; [exact Hl |].
    rewrite Z.mod_small in Hd by lia. discriminate Hd. }
  assert (Hc : a = 1 \/ a = 2 \/ a = 3 \/ a = 4) by lia.
  destruct Hc as [-> | [-> | [-> | ->]]]; auto; discriminate Hd.
Qed.

Lemma divides_pos_8 (a : Z) :
  divides_pos a 8 = true -> a = 1 \/ a = 2 \/ a = 4 \/ a = 8.
Proof.
  unfold divides_pos. intros H.
  apply andb_prop in H. destruct H as [Hp Hd].
  apply Z.ltb_lt in Hp. apply Z.eqb_eq in Hd.
  assert (Hle : a <= 8).
  { destruct (Z_le_gt_dec a 8) as [Hl | Hg]; [exact Hl |].
    rewrite Z.mod_small in Hd by lia. discriminate Hd. }
  assert (Hc : a = 1 \/ a = 2 \/ a = 3 \/ a = 4 \/
               a = 5 \/ a = 6 \/ a = 7 \/ a = 8) by lia.
  destruct Hc as [-> | [-> | [-> | [-> | [-> | [-> | [-> | ->]]]]]]];
    auto; discriminate Hd.
Qed.

(** A covered platform is one of finitely many, up to byte order. *)
Lemma abi_ok_inv (abi : ABI) :
  abi_ok abi = true ->
  (align16 abi = 1 \/ align16 abi = 2) /\
  (align32 abi = 1 \/ align32 abi = 2 \/ align32 abi = 4) /\
  (align64 abi = 1 \/ align64 abi = 2 \/ align64 abi = 4 \/ align64 abi = 8) /\
  ((ptr_size abi = 4 /\
    (ptr_align abi = 1 \/ ptr_align abi = 2 \/ ptr_align abi = 4)) \/
   (ptr_size abi = 8 /\
    (ptr_align abi = 1 \/ ptr_align abi = 2 \/ ptr_align abi = 4 \/
     ptr_align abi = 8))).
Proof.
  unfold abi_ok. intros H.
  apply andb_prop in H. destruct H as [H Hpa].
  apply andb_prop in H. destruct H as [H Hps].
  apply andb_prop in H. destruct H as [H H64].
  apply andb_prop in H. destruct H as [H16 H32].
  apply orb_prop in Hps.
  split; [apply divides_pos_2; exact H16 |].
  split; [apply divides_pos_4; exact H32 |].
  split; [apply divides_pos_8; exact H64 |].
  destruct Hps as [E | E]; apply Z.eqb_eq in E; rewrite E in Hpa.
  - left. split; [exact E | apply divides_pos_4; exact Hpa].
  - right. split; [exact E | apply divides_pos_8; exact Hpa].
Qed.

(** Split a goal about a covered platform into one goal per choice of
    alignments; the byte order stays a variable. *)
Ltac each_abi abi H :=
  let I := fresh "I" in
  pose proof (abi_ok_inv abi H) as I;
  destruct abi as [a16 a32 a64 ps pa be];
  cbn [align16 align32 align64 ptr_size ptr_align] in I;
  destruct I as (I16 & I32 & I64 & Ip);
  destruct I16 as [-> | ->];
  destruct I32 as [-> | [-> | ->]];
  destruct I64 as [-> | [-> | [-> | ->]]];
  destruct Ip as [(-> & [-> | [-> | ->]]) | (-> & [-> | [-> | [-> | ->]]])].

(** *** Layout of [struct ublksrv_ctrl_cmd] *)

Lemma ctrl_cmd_sizeof (abi : ABI) :
  abi_ok abi = true -> sizeof abi struct_ublksrv_ctrl_cmd = 32.
Proof. intros H. each_abi abi H; reflexivity. Qed.

Lemma ctrl_cmd_offsets (abi : ABI) :
  abi_ok abi = true ->
  offsetof abi struct_ublksrv_ctrl_cmd "dev_id" = Some 0 /\
  offsetof abi struct_ublksrv_ctrl_cmd "queue_id" = Some 4 /\
  offsetof abi struct_ublksrv_ctrl_cmd "len" = Some 6 /\
  offsetof abi struct_ublksrv_ctrl_cmd "addr" = Some 8 /\
  offsetof abi struct_ublksrv_ctrl_cmd "data" = Some 16 /\
  offsetof abi struct_ublksrv_ctrl_cmd "dev_path_len" = Some 24 /\
  offsetof abi struct_ublksrv_ctrl_cmd "pad" = Some 26 /\
  offsetof abi struct_ublksrv_ctrl_cmd "reserved" = Some 28.
Proof. intros H. each_abi abi H; repeat split; reflexivity. Qed.

Lemma ctrl_cmd_extents (abi : ABI) :
  abi_ok abi = true ->
  map (member_extent abi struct_ublksrv_ctrl_cmd)
    [ "dev_id"; "queue_id"; "len"; "addr"; "data"; "dev_path_len"; "pad";
      "reserved" ]%string
  = [ Some (0, 4); Some (4, 2); Some (6, 2); Some (8, 8); Some (16, 8);
      Some (24, 2); Some (26, 2); Some (28, 4) ].
Proof. intros H. each_abi abi H; reflexivity. Qed.

(** *** Bytes of an integer *)

Lemma le_value_bytes_from (v : Z) (n k : nat) :
  le_value (map (fun i => byte_at i v) (seq k n))
  = (v / 2 ^ (8 * Z.of_nat k)) mod 2 ^ (8 * Z.of_nat n).
Proof.
  revert k. induction n as [| n IH]; intros k.
  - cbn [seq map le_value]. rewrite Z.mul_0_r, Z.pow_0_r, Z.mod_1_r.
    reflexivity.
  - cbn [seq map le_value]. rewrite IH. unfold byte_at.
    rewrite Z.shiftr_div_pow2 by lia.
    change 255 with (Z.ones 8). rewrite Z.land_ones by lia.
    replace (2 ^ (8 * Z.of_nat (S k)))
      with (2 ^ (8 * Z.of_nat k) * 2 ^ 8)
      by (rewrite <- Z.pow_add_r by lia; f_equal; lia).
    replace (2 ^ (8 * Z.of_nat (S n)))
      with (2 ^ 8 * 2 ^ (8 * Z.of_nat n))
      by (rewrite <- Z.pow_add_r by lia; f_equal; lia).
    rewrite <- Z.div_div by lia.
    rewrite Z.rem_mul_r by lia.
    reflexivity.
Qed.

Lemma int_of_bytes_of_int (abi : ABI) (n : nat) (v : Z) :
  int_of_bytes abi (bytes_of_int abi n v) = v mod 2 ^ (8 * Z.of_nat n).
Proof.
  unfold int_of_bytes, bytes_of_int.
  destruct (big_endian abi); [rewrite rev_involutive |];
    unfold le_bytes; rewrite le_value_bytes_from;
    rewrite Z.mul_0_r, Z.pow_0_r, Z.div_1_r; reflexivity.
Qed.

(** *** The bytes of a command record *)

Lemma store_member_at (abi : ABI) (t u : ctype) (buf : list Z)
    (name : string) (v o : Z) :
  offsetof abi t name = Some o ->
  typeof_member t name = Some u ->
  store_member abi t buf (name, v)
  = store buf o (bytes_of_int abi (Z.to_nat (sizeof abi u)) v).
Proof.
  intros Ho Ht. unfold store_member. cbn [fst snd].
  rewrite Ho, Ht. reflexivity.
Qed.

(** The object is 32 bytes long and every member's bytes sit at the
    member's offset, untouched by the stores of the other members. *)
Lemma cmd_bytes_members (abi : ABI) (c : ublksrv_ctrl_cmd) :
  abi_ok abi = true ->
  List.length (cmd_bytes abi c) = 32%nat /\
  load (cmd_bytes abi c) 0 4 = bytes_of_int abi 4 (dev_id c) /\
  load (cmd_bytes abi c) 4 2 = bytes_of_int abi 2 (queue_id c) /\
  load (cmd_bytes abi c) 6 2 = bytes_of_int abi 2 (len c) /\
  load (cmd_bytes abi c) 8 8 = bytes_of_int abi 8 (addr c) /\
  load (cmd_bytes abi c) 16 8 = bytes_of_int abi 8 (data c) /\
  load (cmd_bytes abi c) 24 2 = bytes_of_int abi 2 (dev_path_len c) /\
  load (cmd_bytes abi c) 26 2 = bytes_of_int abi 2 (pad c) /\
  load (cmd_bytes abi c) 28 4 = bytes_of_int abi 4 (reserved c).
Proof.
  intros H.
  pose proof (ctrl_cmd_sizeof abi H) as Hs.
  destruct (ctrl_cmd_offsets abi H)
    as (O0 & O1 & O2 & O3 & O4 & O5 & O6 & O7).
  assert (E : cmd_bytes abi c =
    store (store (store (store (store (store (store (store
      (repeat 0 32%nat)
      0 (bytes_of_int abi 4 (dev_id c)))
      4 (bytes_of_int abi 2 (queue_id c)))
      6 (bytes_of_int abi 2 (len c)))
      8 (bytes_of_int abi 8 (addr c)))
      16 (bytes_of_int abi 8 (data c)))
      24 (bytes_of_int abi 2 (dev_path_len c)))
      26 (bytes_of_int abi 2 (pad c)))
      28 (bytes_of_int abi 4 (reserved c))).
  { unfold cmd_bytes, object_of, members_of. cbn [fold_left].
    rewrite Hs.
    rewrite (store_member_at abi _ Tu32 _ _ _ _ O7 eq_refl).
    rewrite (store_member_at abi _ Tu16 _ _ _ _ O6 eq_refl).
    rewrite (store_member_at abi _ Tu16 _ _ _ _ O5 eq_refl).
    rewrite (store_member_at abi _ Tu64 _ _ _ _ O4 eq_refl).
    rewrite (store_member_at abi _ Tu64 _ _ _ _ O3 eq_refl).
    rewrite (store_member_at abi _ Tu16 _ _ _ _ O2 eq_refl).
    rewrite (store_member_at abi _ Tu16 _ _ _ _ O1 eq_refl).
    rewrite (store_member_at abi _ Tu32 _ _ _ _ O0 eq_refl).
    reflexivity. }
  rewrite E. clear E.
  unfold bytes_of_int.
  destruct (big_endian abi); cbv - [byte_at]; repeat split; reflexivity.
Qed.

(** Reading a member back as an unsigned integer gives its value. *)
Lemma cmd_bytes_read (abi : ABI) (c : ublksrv_ctrl_cmd) :
  abi_ok abi = true ->
  cmd_in_range c ->
  read_uint abi (cmd_bytes abi c) 0 4 = dev_id c /\
  read_uint abi (cmd_bytes abi c) 4 2 = queue_id c /\
  read_uint abi (cmd_bytes abi c) 6 2 = len c /\
  read_uint abi (cmd_bytes abi c) 8 8 = addr c /\
  read_uint abi (cmd_bytes abi c) 16 8 = data c /\
  read_uint abi (cmd_bytes abi c) 24 2 = dev_path_len c /\
  read_uint abi (cmd_bytes abi c) 26 2 = pad c /\
  read_uint abi (cmd_bytes abi c) 28 4 = reserved c.
Proof.
  intros H (R0 & R1 & R2 & R3 & R4 & R5 & R6 & R7).
  destruct (cmd_bytes_members abi c H)
    as (_ & L0 & L1 & L2 & L3 & L4 & L5 & L6 & L7).
  unfold read_uint.
  rewrite L0, L1, L2, L3, L4, L5, L6, L7.
  rewrite !int_of_bytes_of_int.
  repeat split; apply Z.mod_small; assumption.
Qed.

(** *** What a wrapper does *)

Lemma skipn_length_app {A : Type} (l l' : list A) :
  skipn (List.length l) (l ++ l') = l'.
Proof. induction l as [| x l IH]; [reflexivity | exact IH]. Qed.

Lemma int_neg_exact (v : Z) : INT_MIN < v <= INT_MAX -> int_neg v = - v.
Proof.
  unfold INT_MIN, INT_MAX, int_neg, sint32. intros H.
  rewrite Z.mod_small by lia. lia.
Qed.

Lemma uint_range (w v : Z) : 0 <= w -> 0 <= uint w v < 2 ^ w.
Proof.
  intros Hw. unfold uint. apply Z.mod_pos_bound.
  apply Z.pow_pos_nonneg; lia.
Qed.

Lemma uint_small (w v : Z) : 0 <= v < 2 ^ w -> uint w v = v.
Proof. intros H. unfold uint. apply Z.mod_small. exact H. Qed.

Lemma command_of_in_range (c : wrapper_call) : cmd_in_range (command_of c).
Proof.
  pose proof (fun v => uint_range 16 v ltac:(lia)) as R16.
  pose proof (fun v => uint_range 32 v ltac:(lia)) as R32.
  pose proof (fun v => uint_range 64 v ltac:(lia)) as R64.
  destruct c; unfold cmd_in_range, command_of;
    cbn [dev_id queue_id len addr data dev_path_len pad reserved];
    unfold u16, u32, u64;
    repeat match goal with
           | |- 0 <= uint 16 ?v < _ => apply R16
           | |- 0 <= uint 32 ?v < _ => apply R32
           | |- 0 <= uint 64 ?v < _ => apply R64
           | |- 0 <= _ < _ => split; [discriminate | reflexivity]
           | |- _ /\ _ => split
           end.
Qed.

(** Each wrapper issues one ioctl, the one [call_of] describes, records the
    new [errno], and returns the result of ioctl if that is not negative
    and minus [errno] otherwise. *)
Lemma run_submits (abi : ABI) (IOWR : Z -> Z -> Z -> Z)
    (kernel : world -> ioctl_call -> Z * Z) (c : wrapper_call) (w : world) :
  run abi IOWR kernel c w
  = (if fst (kernel w (call_of abi IOWR c)) <? 0
     then int_neg (snd (kernel w (call_of abi IOWR c)))
     else fst (kernel w (call_of abi IOWR c)),
     {| errno := snd (kernel w (call_of abi IOWR c));
        issued := issued w ++ [call_of abi IOWR c] |}).
Proof.
  destruct c; unfold run, call_of, fd_of, number_of, command_of;
    unfold ublk_add_dev, ublk_set_params, ublk_start_dev, ublk_stop_dev,
      ublk_del_dev, bind, ioctl, get_errno, Return;
    match goal with
    | |- context [kernel w ?k] => destruct (kernel w k) as [r e]
    end;
    cbn [fst snd]; destruct (r <? 0); reflexivity.
Qed.

Lemma calls_issued_run (abi : ABI) (IOWR : Z -> Z -> Z -> Z)
    (kernel : world -> ioctl_call -> Z * Z) (c : wrapper_call) (w : world) :
  calls_issued abi IOWR kernel c w = [call_of abi IOWR c].
Proof.
  unfold calls_issued. rewrite run_submits. cbn [snd issued].
  apply skipn_length_app.
Qed.

Lemma commands_issued_run (abi : ABI) (IOWR : Z -> Z -> Z -> Z)
    (kernel : world -> ioctl_call -> Z * Z) (c : wrapper_call) (w : world) :
  commands_issued abi IOWR kernel c w = [command_of c].
Proof. unfold commands_issued. rewrite calls_issued_run. reflexivity. Qed.

Section WrapperProperties.
Variable abi : ABI.
Variable IOWR : Z -> Z -> Z -> Z.
Variable kernel : world -> ioctl_call -> Z * Z.

(** C1. Every command record that a wrapper builds has the fixed binary
    layout: the struct is 32 bytes, its members dev_id (4 bytes), queue_id
    (2), len (2), addr (8), data (8), dev_path_len (2), pad (2) and reserved
    (4) start at bytes 0, 4, 6, 8, 16, 24, 26 and 28, and the object passed
    to ioctl is 32 bytes that hold each member's value at that place.  This
    holds on every platform whose alignments divide the sizes of the
    types. *)
Theorem ctrl_cmd_binary_layout (c : wrapper_call) (w : world) :
  abi_ok abi = true ->
  sizeof abi struct_ublksrv_ctrl_cmd = 32 /\
  map (member_extent abi struct_ublksrv_ctrl_cmd)
    [ "dev_id"; "queue_id"; "len"; "addr"; "data"; "dev_path_len"; "pad";
      "reserved" ]%string
  = [ Some (0, 4); Some (4, 2); Some (6, 2); Some (8, 8); Some (16, 8);
      Some (24, 2); Some (26, 2); Some (28, 4) ] /\
  exists cmd,
    commands_issued abi IOWR kernel c w = [cmd] /\
    List.length (cmd_bytes abi cmd) = 32%nat /\
    read_uint abi (cmd_bytes abi cmd) 0 4 = dev_id cmd /\
    read_uint abi (cmd_bytes abi cmd) 4 2 = queue_id cmd /\
    read_uint abi (cmd_bytes abi cmd) 6 2 = len cmd /\
    read_uint abi (cmd_bytes abi cmd) 8 8 = addr cmd /\
    read_uint abi (cmd_bytes abi cmd) 16 8 = data cmd /\
    read_uint abi (cmd_bytes abi cmd) 24 2 = dev_path_len cmd /\
    read_uint abi (cmd_bytes abi cmd) 26 2 = pad cmd /\
    read_uint abi (cmd_bytes abi cmd) 28 4 = reserved cmd.
Proof.
  intros H.
  split; [apply ctrl_cmd_sizeof; exact H |].
  split; [apply ctrl_cmd_extents; exact H |].
  exists (command_of c).
  split; [apply commands_issued_run |].
  split; [apply (cmd_bytes_members abi (command_of c) H) |].
  apply cmd_bytes_read; [exact H | apply command_of_in_range].
Qed.

(** C3. For each of the five wrappers and whatever ioctl answers: when
    ioctl returns a negative value and sets errno to N, the wrapper returns
    -N, the error number itself and no other; when ioctl returns a value
    that is not negative, the wrapper returns that value.  In particular a
    simulated kernel result -N comes back as -N from every wrapper, and a
    simulated result that is not negative comes back unchanged. *)
Theorem kernel_result_verbatim (c : wrapper_call) (w : world) (N : Z) :
  0 < N <= INT_MAX ->
  (exists call,
     calls_issued abi IOWR kernel c w = [call] /\
     (forall r, r < 0 -> kernel w call = (r, N) ->
        fst (run abi IOWR kernel c w) = - N /\
        fst (run abi IOWR kernel c w) < 0) /\
     (forall r e, 0 <= r -> kernel w call = (r, e) ->
        fst (run abi IOWR kernel c w) = r)) /\
  fst (run abi IOWR (simulated_kernel (- N)) c w) = - N /\
  (forall k, 0 <= k -> fst (run abi IOWR (simulated_kernel k) c w) = k).
Proof.
  intros HN.
  assert (HI : int_neg N = - N)
    by (apply int_neg_exact; unfold INT_MIN, INT_MAX in *; lia).
  split; [| split].
  - exists (call_of abi IOWR c).
    split; [apply calls_issued_run |]. split.
    + intros r Hr E. rewrite run_submits, E. cbn [fst snd].
      destruct (Z.ltb_spec r 0) as [_ | Hge]; [| lia].
      rewrite HI. split; [reflexivity | lia].
    + intros r e Hr E. rewrite run_submits, E. cbn [fst snd].
      destruct (Z.ltb_spec r 0) as [Hlt | _]; [lia | reflexivity].
  - rewrite run_submits. unfold simulated_kernel.
    destruct (Z.ltb_spec (- N) 0) as [_ | Hge]; [| lia].
    cbn [fst snd]. rewrite Z.opp_involutive. exact HI.
  - intros k Hk. rewrite run_submits. unfold simulated_kernel.
    destruct (Z.ltb_spec k 0) as [Hlt | _]; [lia |].
    cbn [fst snd].
    destruct (Z.ltb_spec k 0) as [Hlt | _]; [lia | reflexivity].
Qed.

(** C5, as the code has it.  [ublk_start_dev] keeps no record of the
    device's lifecycle state and checks nothing before the call: whatever
    was issued before, also nothing at all, it issues exactly one
    START_DEV ioctl carrying the device id and the pid, and its result is
    the kernel's verdict (the result of ioctl, or minus errno when that
    result is negative). *)
Theorem start_always_reaches_kernel (fd d pid : Z) (w : world) :
  exists call,
    issued (snd (ublk_start_dev abi IOWR kernel fd d pid w))
      = issued w ++ [call] /\
    call_fd call = fd /\
    call_request call = UBLK_IOCTL_CMD abi IOWR UBLK_CMD_START_DEV /\
    dev_id (call_arg call) = u32 d /\
    data (call_arg call) = u64 pid /\
    fst (ublk_start_dev abi IOWR kernel fd d pid w)
      = (if fst (kernel w call) <? 0
         then int_neg (snd (kernel w call))
         else fst (kernel w call)).
Proof.
  exists (call_of abi IOWR (StartDev fd d pid)).
  change (ublk_start_dev abi IOWR kernel fd d pid w)
    with (run abi IOWR kernel (StartDev fd d pid) w).
  rewrite run_submits. cbn [fst snd issued].
  repeat split; reflexivity.
Qed.

(** C6, as the code has it.  The commands of set-parameters, start, stop
    and delete carry the sentinel 0xFFFF as queue_id; the command of add
    carries the queue_id its caller passed (as an unsigned short), which is
    the sentinel only when the caller passes the sentinel. *)
Theorem queue_id_sentinel_unless_add (c : wrapper_call) (w : world) :
  exists cmd,
    commands_issued abi IOWR kernel c w = [cmd] /\
    queue_id cmd
    = match c with
      | AddDev _ _ q _ _ => u16 q
      | _ => 0xFFFF
      end.
Proof.
  exists (command_of c). split; [apply commands_issued_run |].
  destruct c; reflexivity.
Qed.

(** C8. The commands of start, stop and delete, which carry no payload,
    have len = 0 and addr = 0. *)
Theorem no_payload_len_addr_zero (fd d pid : Z) (w : world) :
  map (fun cmd => (len cmd, addr cmd))
    (commands_issued abi IOWR kernel (StartDev fd d pid) w) = [(0, 0)] /\
  map (fun cmd => (len cmd, addr cmd))
    (commands_issued abi IOWR kernel (StopDev fd d) w) = [(0, 0)] /\
  map (fun cmd => (len cmd, addr cmd))
    (commands_issued abi IOWR kernel (DelDev fd d) w) = [(0, 0)].
Proof. rewrite !commands_issued_run. repeat split; reflexivity. Qed.

(** C9. In the command of every wrapper (add, set-parameters, start, stop,
    delete) the filler members dev_path_len, pad and reserved are zero. *)
Theorem filler_members_zero (c : wrapper_call) (w : world) :
  map (fun cmd => (dev_path_len cmd, pad cmd, reserved cmd))
    (commands_issued abi IOWR kernel c w) = [(0, 0, 0)].
Proof. rewrite commands_issued_run. destruct c; reflexivity. Qed.

(** C10. The command of add carries the queue_id its caller passed,
    unchanged, for every value of the parameter's type; every other wrapper
    forces queue_id to 0xFFFF, and add is the only one for which no single
    value is forced. *)
Theorem add_queue_id_verbatim (fd d q l a : Z) (c : wrapper_call)
    (w : world) :
  0 <= q < 2 ^ 16 ->
  map queue_id (commands_issued abi IOWR kernel (AddDev fd d q l a) w)
    = [q] /\
  (is_add c = false ->
   map queue_id (commands_issued abi IOWR kernel c w) = [0xFFFF]) /\
  (forall v, exists q',
     0 <= q' < 2 ^ 16 /\
     map queue_id (commands_issued abi IOWR kernel (AddDev fd d q' l a) w)
       <> [v]).
Proof.
  intros Hq. split; [| split].
  - rewrite commands_issued_run. cbn [map command_of queue_id].
    unfold u16. rewrite uint_small by exact Hq. reflexivity.
  - intros Hc. rewrite commands_issued_run.
    destruct c; [discriminate Hc | reflexivity ..].
  - intros v. destruct (Z.eq_dec v 0) as [-> | Hv].
    + exists 1. split; [lia |]. rewrite commands_issued_run.
      cbn. discriminate.
    + exists 0. split; [lia |]. rewrite commands_issued_run.
      cbn. intros E. injection E as E. apply Hv. symmetry. exact E.
Qed.

End WrapperProperties.

(** *** The verb table *)

Lemma every_verb_listed (v : Codec.verb) : In v Codec.all_verbs.
Proof. destruct v; cbn; tauto. Qed.

(** C7. [opcode_for] answers each of the seven verbs (add, set-parameters,
    start, stop, delete, get-info, get-parameters) with its command number,
    the one the source defines, and answers [UnknownVerb] exactly for what
    is not one of the seven. *)
Theorem opcode_for_total_on_verbs (v : Codec.verb) (s : string) :
  Codec.opcode_for (Codec.verb_name v) = inr (Codec.command_number v) /\
  map Codec.command_number Codec.all_verbs
    = [0x04; 0x05; 0x06; 0x10; 0x02; 0x01; 0x09] /\
  ((exists v', Codec.verb_name v' = s /\
               Codec.opcode_for s = inr (Codec.command_number v')) \/
   ((forall v', Codec.verb_name v' <> s) /\
    Codec.opcode_for s = inl Codec.UnknownVerb)).
Proof.
  split; [destruct v; reflexivity |].
  split; [reflexivity |].
  unfold Codec.opcode_for.
  destruct (find (fun x => String.eqb (Codec.verb_name x) s) Codec.all_verbs)
    as [v' |] eqn:F.
  - left. exists v'. apply find_some in F. destruct F as [_ E].
    apply String.eqb_eq in E. split; [exact E | reflexivity].
  - right. split; [| reflexivity].
    intros v' E.
    pose proof (find_none _ _ F v' (every_verb_listed v')) as N.
    cbv beta in N. apply String.eqb_neq in N. apply N. exact E.
Qed.

(** *** The layout report *)

(** C2. On every covered platform the report of [main] gives the size of
    the submission entry as 56 and the offsets opcode 0, fd 4, off 8,
    addr 16, len 24, uring_cmd_flags 28, user_data 32, buf_index 40 and
    splice_fd_in 44, which are the size and offsets of the declaration, and
    [main] returns 0. *)
Theorem sqe_report_matches_table (abi : ABI) :
  abi_ok abi = true ->
  exists out,
    SqeOffset.run_main abi = Some (0, out) /\
    SqeOffset.reported "io_uring_sqe size: " out = Some 56 /\
    map (SqeOffset.reported_offset out)
      [ "opcode"; "fd"; "off"; "addr"; "len"; "uring_cmd_flags";
        "user_data"; "buf_index"; "splice_fd_in" ]%string
    = [ Some 0; Some 4; Some 8; Some 16; Some 24; Some 28; Some 32;
        Some 40; Some 44 ] /\
    sizeof abi SqeOffset.struct_io_uring_sqe = 56 /\
    map (SqeOffset.offset_in_sqe abi)
      [ "opcode"; "fd"; "off"; "addr"; "len"; "uring_cmd_flags";
        "user_data"; "buf_index"; "splice_fd_in" ]%string
    = [ Some 0; Some 4; Some 8; Some 16; Some 24; Some 28; Some 32;
        Some 40; Some 44 ].
Proof.
  intros H.
  each_abi abi H;
    (eexists; split; [vm_compute; reflexivity |]);
    repeat split; vm_compute; reflexivity.
Qed.

(** C4, evaluated.  On x86-64 Linux the report states the size of the
    base structure as 56 while its note puts addr3 at offset 48; addr3 is
    not a member of the declaration. *)
Theorem addr3_note_is_not_the_size :
  exists out,
    SqeOffset.run_main lp64 = Some (0, out) /\
    SqeOffset.reported "io_uring_sqe size: " out = Some 56 /\
    SqeOffset.reported "addr3 would be at offset " out = Some 48 /\
    SqeOffset.reported "&sqe->addr3 which is offset " out = Some 48 /\
    SqeOffset.offset_in_sqe lp64 "addr3" = None /\
    SqeOffset.reported_offset out "addr3" = None.
Proof.
  eexists. split; [vm_compute; reflexivity |].
  repeat split; vm_compute; reflexivity.
Qed.

(** *** Instances *)

Lemma ctrl_cmd_binary_layout_witness :
  abi_ok lp64 = true /\
  sizeof lp64 struct_ublksrv_ctrl_cmd = 32.
Proof.
  split; [reflexivity |].
  destruct (ctrl_cmd_binary_layout lp64 linux_IOWR (simulated_kernel 0)
              (AddDev 3 7 0xFFFF 64 4096) fresh_world eq_refl) as (E & _).
  exact E.
Defined.

Lemma sqe_report_matches_table_witness :
  abi_ok lp64 = true /\
  exists out, SqeOffset.run_main lp64 = Some (0, out).
Proof.
  split; [reflexivity |].
  destruct (sqe_report_matches_table lp64 eq_refl) as (out & E & _).
  exists out. exact E.
Defined.

Lemma kernel_result_verbatim_witness :
  0 < 16 <= INT_MAX /\
  fst (run lp64 linux_IOWR (simulated_kernel (- 16)) (StartDev 3 7 1234)
         fresh_world) = - 16.
Proof.
  assert (H : 0 < 16 <= INT_MAX) by (unfold INT_MAX; lia).
  split; [exact H |].
  destruct (kernel_result_verbatim lp64 linux_IOWR (simulated_kernel (- 16))
              (StartDev 3 7 1234) fresh_world 16 H) as (_ & E & _).
  exact E.
Defined.

Lemma add_queue_id_verbatim_witness :
  0 <= 5 < 2 ^ 16 /\
  map queue_id
    (commands_issued lp64 linux_IOWR (simulated_kernel 0)
       (AddDev 3 7 5 64 4096) fresh_world) = [5].
Proof.
  assert (H : 0 <= 5 < 2 ^ 16) by lia.
  split; [exact H |].
  destruct (add_queue_id_verbatim lp64 linux_IOWR (simulated_kernel 0)
              3 7 5 64 4096 (StopDev 3 7) fresh_world H) as (E & _).
  exact E.
Defined.

(** *** Where the code departs from the claims *)

(** C5 fails on the code: on a device that was never added, with a kernel
    that accepts, start issues an ioctl and returns success. *)
Lemma start_on_fresh_device_is_forwarded :
  issued fresh_world = [] /\
  fst (ublk_start_dev lp64 linux_IOWR (simulated_kernel 0) 3 7 1234
         fresh_world) = 0 /\
  List.length
    (issued (snd (ublk_start_dev lp64 linux_IOWR (simulated_kernel 0)
                    3 7 1234 fresh_world))) = 1%nat /\
  ~ (fst (ublk_start_dev lp64 linux_IOWR (simulated_kernel 0) 3 7 1234
            fresh_world) < 0 /\
     issued (snd (ublk_start_dev lp64 linux_IOWR (simulated_kernel 0)
                    3 7 1234 fresh_world)) = issued fresh_world).
Proof.
  split; [reflexivity |]. split; [reflexivity |]. split; [reflexivity |].
  intros [Hneg _]. vm_compute in Hneg. discriminate Hneg.
Qed.

(** C6 fails on the code: add called with queue_id 0 encodes queue_id 0,
    not the sentinel. *)
Lemma add_queue_id_can_differ_from_sentinel :
  map queue_id
    (commands_issued lp64 linux_IOWR (simulated_kernel 0)
       (AddDev 3 7 0 64 4096) fresh_world) = [0] /\
  ~ Forall (fun cmd => queue_id cmd = 0xFFFF)
      (commands_issued lp64 linux_IOWR (simulated_kernel 0)
         (AddDev 3 7 0 64 4096) fresh_world).
Proof.
  split; [reflexivity |].
  intros F. rewrite commands_issued_run in F.
  inversion F as [| x l Hq _]. cbn in Hq. discriminate Hq.
Qed.

(* ====================================================================== *)
(** ** Further properties of the wrappers *)
(* ====================================================================== *)

(** *** Sequences of calls *)

(** X1. Calls made one after the other each issue exactly one ioctl, in
    the order of the calls, after everything that was issued before; each
    ioctl goes to the descriptor the caller passed, with the request number
    of its verb, and there is one result per call. *)
Theorem run_seq_issues_in_order (abi : ABI) (IOWR : Z -> Z -> Z -> Z)
    (kernel : world -> ioctl_call -> Z * Z) (cs : list wrapper_call)
    (w : world) :
  issued (snd (run_seq abi IOWR kernel cs w))
    = issued w ++ map (call_of abi IOWR) cs /\
  List.length (fst (run_seq abi IOWR kernel cs w)) = List.length cs.
Proof.
  revert w. induction cs as [| c cs IH]; intros w.
  - cbn. rewrite app_nil_r. split; reflexivity.
  - cbn [run_seq]. unfold bind, Return. rewrite run_submits.
    cbv beta iota.
    set (w1 := {| errno := snd (kernel w (call_of abi IOWR c));
                  issued := issued w ++ [call_of abi IOWR c] |}).
    destruct (IH w1) as [Hi Hl].
    destruct (run_seq abi IOWR kernel cs w1) as [rs w2].
    cbn [fst snd] in *. rewrite Hi. subst w1. cbn [issued map].
    rewrite <- app_assoc. split; [reflexivity |].
    change (S (List.length rs) = S (List.length cs)).
    rewrite Hl. reflexivity.
Qed.

Lemma run_simulated_success (abi : ABI) (IOWR : Z -> Z -> Z -> Z)
    (k : Z) (c : wrapper_call) (w : world) :
  0 <= k ->
  run abi IOWR (simulated_kernel k) c w
  = (k, {| errno := errno w; issued := issued w ++ [call_of abi IOWR c] |}).
Proof.
  intros Hk. rewrite run_submits. unfold simulated_kernel.
  destruct (Z.ltb_spec k 0) as [Hlt | _]; [lia |].
  cbn [fst snd].
  destruct (Z.ltb_spec k 0) as [Hlt | _]; [lia | reflexivity].
Qed.

(** X2. When the kernel accepts everything with the result k >= 0, every
    call of a sequence returns k and errno is afterwards what it was before
    the first call: a wrapper that succeeds neither reads nor clears
    errno. *)
Theorem run_seq_all_accepted (abi : ABI) (IOWR : Z -> Z -> Z -> Z)
    (k : Z) (cs : list wrapper_call) (w : world) :
  0 <= k ->
  fst (run_seq abi IOWR (simulated_kernel k) cs w)
    = repeat k (List.length cs) /\
  errno (snd (run_seq abi IOWR (simulated_kernel k) cs w)) = errno w.
Proof.
  intros Hk. revert w. induction cs as [| c cs IH]; intros w.
  - cbn. split; reflexivity.
  - cbn [run_seq]. unfold bind, Return.
    rewrite (run_simulated_success abi IOWR k c w Hk).
    cbv beta iota.
    set (w1 := {| errno := errno w;
                  issued := issued w ++ [call_of abi IOWR c] |}).
    destruct (IH w1) as [Hr He].
    destruct (run_seq abi IOWR (simulated_kernel k) cs w1) as [rs w2].
    cbn [fst snd] in *. rewrite Hr, He. subst w1.
    cbn [errno List.length repeat]. split; reflexivity.
Qed.

(** *** The sign of a result *)

(** X3. With ioctl's result r and errno e both of type int (e other than
    INT_MIN): a wrapper's result is an int; it is negative exactly when r
    is negative and e is positive; and when ioctl fails (r < 0) without
    setting errno (e = 0) the wrapper returns 0, which its caller cannot
    tell from success. *)
Theorem wrapper_result_sign (abi : ABI) (IOWR : Z -> Z -> Z -> Z)
    (kernel : world -> ioctl_call -> Z * Z) (c : wrapper_call) (w : world)
    (r e : Z) :
  kernel w (call_of abi IOWR c) = (r, e) ->
  INT_MIN <= r <= INT_MAX ->
  INT_MIN < e <= INT_MAX ->
  (fst (run abi IOWR kernel c w) < 0 <-> r < 0 /\ 0 < e) /\
  INT_MIN <= fst (run abi IOWR kernel c w) <= INT_MAX /\
  (r < 0 -> e = 0 -> fst (run abi IOWR kernel c w) = 0).
Proof.
  intros E Hr He.
  rewrite run_submits, E. cbn [fst snd].
  rewrite (int_neg_exact e He).
  unfold INT_MIN, INT_MAX in *.
  destruct (Z.ltb_spec r 0) as [Hlt | Hge]; repeat split; intros; lia.
Qed.

(** *** Arguments *)


(** *** The object handed to the kernel *)

Lemma cmd_bytes_stores (abi : ABI) (c : ublksrv_ctrl_cmd) :
  abi_ok abi = true ->
  cmd_bytes abi c =
    store (store (store (store (store (store (store (store
      (repeat 0 32%nat)
      0 (bytes_of_int abi 4 (dev_id c)))
      4 (bytes_of_int abi 2 (queue_id c)))
      6 (bytes_of_int abi 2 (len c)))
      8 (bytes_of_int abi 8 (addr c)))
      16 (bytes_of_int abi 8 (data c)))
      24 (bytes_of_int abi 2 (dev_path_len c)))
      26 (bytes_of_int abi 2 (pad c)))
      28 (bytes_of_int abi 4 (reserved c)).
Proof.
  intros H.
  pose proof (ctrl_cmd_sizeof abi H) as Hs.
  destruct (ctrl_cmd_offsets abi H)
    as (O0 & O1 & O2 & O3 & O4 & O5 & O6 & O7).
  unfold cmd_bytes, object_of, members_of. cbn [fold_left].
  rewrite Hs.
  rewrite (store_member_at abi _ Tu32 _ _ _ _ O7 eq_refl).
  rewrite (store_member_at abi _ Tu16 _ _ _ _ O6 eq_refl).
  rewrite (store_member_at abi _ Tu16 _ _ _ _ O5 eq_refl).
  rewrite (store_member_at abi _ Tu64 _ _ _ _ O4 eq_refl).
  rewrite (store_member_at abi _ Tu64 _ _ _ _ O3 eq_refl).
  rewrite (store_member_at abi _ Tu16 _ _ _ _ O2 eq_refl).
  rewrite (store_member_at abi _ Tu16 _ _ _ _ O1 eq_refl).
  rewrite (store_member_at abi _ Tu32 _ _ _ _ O0 eq_refl).
  reflexivity.
Qed.

Lemma byte_at_range (i : nat) (v : Z) : 0 <= byte_at i v < 256.
Proof.
  unfold byte_at. change 255 with (Z.ones 8).
  rewrite Z.land_ones by lia. apply Z.mod_pos_bound. reflexivity.
Qed.

Lemma bytes_of_int_range (abi : ABI) (n : nat) (v : Z) :
  Forall (fun b => 0 <= b < 256) (bytes_of_int abi n v).
Proof.
  apply Forall_forall. intros b Hb. unfold bytes_of_int in Hb.
  assert (Hin : In b (le_bytes n v))
    by (destruct (big_endian abi); [apply in_rev |]; exact Hb).
  unfold le_bytes in Hin. apply in_map_iff in Hin.
  destruct Hin as (i & <- & _). apply byte_at_range.
Qed.

(** X5. The object a wrapper hands to the kernel is the members' bytes one
    after the other in the order of the declaration, with nothing between
    them and nothing after them: the struct has no padding, so no byte of it
    is left to chance.  Every element is a byte. *)
Theorem cmd_bytes_is_members_in_order (abi : ABI)
    (c : ublksrv_ctrl_cmd) :
  abi_ok abi = true ->
  cmd_bytes abi c
  = bytes_of_int abi 4 (dev_id c) ++ bytes_of_int abi 2 (queue_id c)
    ++ bytes_of_int abi 2 (len c) ++ bytes_of_int abi 8 (addr c)
    ++ bytes_of_int abi 8 (data c) ++ bytes_of_int abi 2 (dev_path_len c)
    ++ bytes_of_int abi 2 (pad c) ++ bytes_of_int abi 4 (reserved c) /\
  Forall (fun b => 0 <= b < 256) (cmd_bytes abi c).
Proof.
  intros H.
  assert (E : cmd_bytes abi c
    = bytes_of_int abi 4 (dev_id c) ++ bytes_of_int abi 2 (queue_id c)
      ++ bytes_of_int abi 2 (len c) ++ bytes_of_int abi 8 (addr c)
      ++ bytes_of_int abi 8 (data c) ++ bytes_of_int abi 2 (dev_path_len c)
      ++ bytes_of_int abi 2 (pad c) ++ bytes_of_int abi 4 (reserved c)).
  { rewrite (cmd_bytes_stores abi c H). unfold bytes_of_int.
    destruct (big_endian abi); cbv - [byte_at]; reflexivity. }
  split; [exact E |].
  rewrite E.
  repeat (apply Forall_app; split); apply bytes_of_int_range.
Qed.

(** X6. Two command records whose members are values of their types and
    whose objects hold the same bytes are the same record: the kernel can
    read back from the 32 bytes exactly what the wrapper stored. *)
Theorem cmd_bytes_injective (abi : ABI) (c1 c2 : ublksrv_ctrl_cmd) :
  abi_ok abi = true ->
  cmd_in_range c1 -> cmd_in_range c2 ->
  cmd_bytes abi c1 = cmd_bytes abi c2 ->
  c1 = c2.
Proof.
  intros H R1 R2 E.
  destruct (cmd_bytes_read abi c1 H R1)
    as (A0 & A1 & A2 & A3 & A4 & A5 & A6 & A7).
  destruct (cmd_bytes_read abi c2 H R2)
    as (B0 & B1 & B2 & B3 & B4 & B5 & B6 & B7).
  rewrite E in A0, A1, A2, A3, A4, A5, A6, A7.
  destruct c1, c2.
  cbn [dev_id queue_id len addr data dev_path_len pad reserved] in *.
  congruence.
Qed.

(** *** Command numbers and request numbers *)

(** X7. The seven command numbers of the source are pairwise distinct, and
    each fits the 8-bit number field of an ioctl request. *)
Theorem command_numbers_distinct (v1 v2 : Codec.verb) :
  (Codec.command_number v1 = Codec.command_number v2 -> v1 = v2) /\
  0 <= Codec.command_number v1 < 2 ^ 8.
Proof.
  split.
  - destruct v1, v2; intros E; try reflexivity; discriminate E.
  - destruct v1; split; (discriminate || reflexivity).
Qed.

(** X8. With [_IOWR] as Linux defines it, [UBLK_IOCTL_CMD] of each of the
    seven command numbers is a request that takes apart again into the
    command number, the magic ['u'], the size of the command struct (32)
    and the direction read|write, and it fits 32 bits. *)
Theorem linux_request_fields (abi : ABI) (v : Codec.verb) :
  abi_ok abi = true ->
  IOC_NR (UBLK_IOCTL_CMD abi linux_IOWR (Codec.command_number v))
    = Codec.command_number v /\
  IOC_TYPE (UBLK_IOCTL_CMD abi linux_IOWR (Codec.command_number v))
    = UBLK_IOC_MAGIC /\
  IOC_SIZE (UBLK_IOCTL_CMD abi linux_IOWR (Codec.command_number v))
    = sizeof abi struct_ublksrv_ctrl_cmd /\
  IOC_DIR (UBLK_IOCTL_CMD abi linux_IOWR (Codec.command_number v)) = 3 /\
  0 <= UBLK_IOCTL_CMD abi linux_IOWR (Codec.command_number v) < 2 ^ 32.
Proof.
  intros H. unfold UBLK_IOCTL_CMD.
  rewrite (ctrl_cmd_sizeof abi H).
  destruct v; repeat split; vm_compute; (reflexivity || discriminate).
Qed.

(** *** The submission entry *)

(** X9. Offset and size of every member of the [io_uring_sqe] declaration,
    on every covered platform.  The byte ranges that the source notes
    beside its members are the ranges the declaration gives; the
    alternatives of a union start at the same byte; only the size of the
    pointer member [__pad2] depends on the platform, and no named member
    other than the padding array [__pad5] reaches beyond byte 47. *)
Theorem sqe_member_table (abi : ABI) :
  abi_ok abi = true ->
  map (fun name =>
         (name, member_extent abi SqeOffset.struct_io_uring_sqe name))
    (member_names SqeOffset.struct_io_uring_sqe)
  = [ ("opcode", Some (0, 1)); ("flags", Some (1, 1));
      ("ioprio", Some (2, 2)); ("fd", Some (4, 4));
      ("off", Some (8, 8)); ("addr2", Some (8, 8));
      ("cmd_op", Some (8, 4)); ("__pad1", Some (12, 4));
      ("addr", Some (16, 8)); ("splice_off_in", Some (16, 8));
      ("__pad2", Some (16, ptr_size abi));
      ("len", Some (24, 4));
      ("uring_cmd_flags", Some (28, 4)); ("rw_flags", Some (28, 4));
      ("user_data", Some (32, 8));
      ("buf_index", Some (40, 2)); ("buf_group", Some (40, 2));
      ("personality", Some (42, 2));
      ("splice_fd_in", Some (44, 4)); ("file_index", Some (44, 4));
      ("__pad3", Some (44, 4)); ("addr_len", Some (44, 2));
      ("__pad4", Some (46, 2));
      ("__pad5", Some (40, 16)) ]%string.
Proof. intros H. each_abi abi H; reflexivity. Qed.

(** X10. The report of [main] is the same text on every covered platform,
    whether pointers are 4 or 8 bytes wide and whatever the alignments and
    the byte order are. *)
Theorem sqe_report_platform_independent (abi : ABI) :
  abi_ok abi = true ->
  SqeOffset.run_main abi = SqeOffset.run_main lp64.
Proof. intros H. each_abi abi H; vm_compute; reflexivity. Qed.

(** *** Instances of the further properties *)

Lemma run_seq_all_accepted_witness :
  0 <= 0 /\
  fst (run_seq lp64 linux_IOWR (simulated_kernel 0)
         [AddDev 3 7 0xFFFF 64 4096; SetParams 3 7 128 8192;
          StartDev 3 7 1234; StopDev 3 7; DelDev 3 7] fresh_world)
  = [0; 0; 0; 0; 0].
Proof.
  assert (H : 0 <= 0) by lia.
  split; [exact H |].
  destruct (run_seq_all_accepted lp64 linux_IOWR 0
              [AddDev 3 7 0xFFFF 64 4096; SetParams 3 7 128 8192;
               StartDev 3 7 1234; StopDev 3 7; DelDev 3 7] fresh_world H)
    as (E & _).
  exact E.
Defined.

Lemma wrapper_result_sign_witness :
  (fun (_ : world) (_ : ioctl_call) => (-1, 0))
    fresh_world (call_of lp64 linux_IOWR (StopDev 3 7)) = (-1, 0) /\
  INT_MIN <= -1 <= INT_MAX /\
  INT_MIN < 0 <= INT_MAX /\
  fst (run lp64 linux_IOWR (fun _ _ => (-1, 0)) (StopDev 3 7) fresh_world)
  = 0.
Proof.
  assert (Hr : INT_MIN <= -1 <= INT_MAX) by (unfold INT_MIN, INT_MAX; lia).
  assert (He : INT_MIN < 0 <= INT_MAX) by (unfold INT_MIN, INT_MAX; lia).
  split; [reflexivity |]. split; [exact Hr |]. split; [exact He |].
  destruct (wrapper_result_sign lp64 linux_IOWR (fun _ _ => (-1, 0))
              (StopDev 3 7) fresh_world (-1) 0 eq_refl Hr He)
    as (_ & _ & Z0).
  apply Z0; [lia | reflexivity].
Defined.


Lemma cmd_bytes_is_members_in_order_witness :
  abi_ok lp64 = true /\
  cmd_bytes lp64 (command_of (StartDev 3 7 1234))
  = [7; 0; 0; 0; 255; 255; 0; 0; 0; 0; 0; 0; 0; 0; 0; 0;
     210; 4; 0; 0; 0; 0; 0; 0; 0; 0; 0; 0; 0; 0; 0; 0].
Proof.
  split; [reflexivity |].
  destruct (cmd_bytes_is_members_in_order lp64
              (command_of (StartDev 3 7 1234)) eq_refl) as (E & _).
  rewrite E. reflexivity.
Defined.

Lemma cmd_bytes_injective_witness :
  abi_ok lp64 = true /\
  cmd_in_range (command_of (StopDev 3 7)) /\
  cmd_in_range (command_of (DelDev 4 7)) /\
  cmd_bytes lp64 (command_of (StopDev 3 7))
    = cmd_bytes lp64 (command_of (DelDev 4 7)) /\
  command_of (StopDev 3 7) = command_of (DelDev 4 7).
Proof.
  assert (E : cmd_bytes lp64 (command_of (StopDev 3 7))
              = cmd_bytes lp64 (command_of (DelDev 4 7))) by reflexivity.
  split; [reflexivity |].
  split; [apply command_of_in_range |].
  split; [apply command_of_in_range |].
  split; [exact E |].
  apply (cmd_bytes_injective lp64 _ _ eq_refl
           (command_of_in_range (StopDev 3 7))
           (command_of_in_range (DelDev 4 7)) E).
Defined.

Lemma linux_request_fields_witness :
  abi_ok lp64 = true /\
  IOC_NR (UBLK_IOCTL_CMD lp64 linux_IOWR (Codec.command_number Codec.start))
  = 0x06.
Proof.
  split; [reflexivity |].
  destruct (linux_request_fields lp64 Codec.start eq_refl) as (E & _).
  exact E.
Defined.

Lemma sqe_member_table_witness :
  abi_ok ilp32 = true /\
  member_extent ilp32 SqeOffset.struct_io_uring_sqe "__pad2"
  = Some (16, 4).
Proof.
  split; [reflexivity |].
  pose proof (sqe_member_table ilp32 eq_refl) as T.
  apply (f_equal (fun l => nth 10 (map snd l) None)) in T.
  exact T.
Defined.

Lemma sqe_report_platform_independent_witness :
  abi_ok ilp32 = true /\
  SqeOffset.run_main ilp32 = SqeOffset.run_main lp64.
Proof.
  split; [reflexivity |].
  apply (sqe_report_platform_independent ilp32). reflexivity.
Defined.
